(** * Decorator: a base class for class-based decorators (decorator.py)

    The Python class [Decorator] routes a call either to the decoration
    hook [__decorator__] or to the wrapping step [__wrap__], depending on
    the truth value of its attribute [function], and binds an owning
    instance through the descriptor method [__get__].

    The embedding keeps Python's object store explicit: an instance is a
    location in a heap of objects, attribute assignment writes the object
    behind that location, and every method is a function from heaps to an
    outcome and a heap. *)

From Stdlib Require Import ZArith.
From stdpp Require Import base option strings gmap list.

Open Scope string_scope.

(** ** Values, objects and the heap *)

Definition loc := positive.

(** Python values: the singleton [None], immutable scalars, and references
    to heap objects (functions, instances, partial objects, ...). *)
Inductive value :=
  | VNone
  | VInt (n : Z)
  | VStr (s : string)
  | VRef (l : loc).

#[global] Instance value_eq_dec : EqDecision value.
Proof. solve_decision. Defined.

Abbreviation attrs := (gmap string value).

(** The class of a decorator instance: [Decorator] itself, or a subclass
    that overrides the hook [__decorator__] and nothing else. *)
Inductive klass :=
  | Base
  | Subclass (name : string).

#[global] Instance klass_eq_dec : EqDecision klass.
Proof. solve_decision. Defined.

(** What an object is, as far as calling it is concerned: a callable whose
    code lies outside the class (a function, a method, an instance of a
    class with [__call__]), an instance of [Decorator] or of a subclass, a
    [functools.partial] object, or an object that cannot be called. *)
Inductive kind :=
  | KCallable
  | KInstance (k : klass)
  | KPartial (func : value) (args : list value) (keywords : attrs)
  | KOther.

#[global] Instance kind_eq_dec : EqDecision kind.
Proof. solve_decision. Defined.

(** A heap object. Attribute lookup follows [object.__getattribute__]:
    first the attributes that the type answers through data descriptors
    ([slots]: for a plain function these are [__name__], [__doc__],
    [__module__], [__qualname__]), then the object's own [__dict__]
    ([dict]), then the plain attributes of its class ([class_ns]: a class
    docstring, for instance). [truth] is the answer of [bool(o)], which a
    class may define through [__bool__] or [__len__]. *)
Record object := Object {
  kind_of : kind;
  truth : bool;
  slots : attrs;
  dict : attrs;
  class_ns : attrs
}.

#[global] Instance object_eq_dec : EqDecision object.
Proof. solve_decision. Defined.

Definition with_slots (s : attrs) (o : object) : object :=
  Object (kind_of o) (truth o) s (dict o) (class_ns o).

Definition with_dict (d : attrs) (o : object) : object :=
  Object (kind_of o) (truth o) (slots o) d (class_ns o).

Abbreviation heap := (gmap loc object).

(** ** Outcomes *)

Inductive exn :=
  | NotImplementedError (msg : string)
  | IndexError (msg : string)
  | TypeError (msg : string)
  | AttributeError (name : string)
  | UserError (payload : value).

#[global] Instance exn_eq_dec : EqDecision exn.
Proof. solve_decision. Defined.

Inductive result (A : Type) :=
  | Ok (a : A)
  | Raise (e : exn).

Arguments Ok {A} a.
Arguments Raise {A} e.

#[global] Instance result_eq_dec {A} `{EqDecision A} : EqDecision (result A).
Proof. solve_decision. Defined.

(** A computation threads the heap and ends in a value or an exception. *)
Definition M (A : Type) : Type := heap → result A * heap.

(** ** The code around the class

    Everything the class calls but does not define: the hooks of the
    subclasses, the bodies of ordinary callables, and the attributes that
    the classes involved hand to their instances. *)
Record program := Program {
  overridden : string → loc → list value → attrs → M value;
  body : value → list value → attrs → M value;
  instance_attrs : klass → attrs;
  partial_attrs : attrs;
  scalar_attrs : value → attrs
}.

(** ** Attribute access and truth *)

Definition lookup_attr (o : object) (a : string) : option value :=
  match slots o !! a with
  | Some v => Some v
  | None =>
      match dict o !! a with
      | Some v => Some v
      | None => class_ns o !! a
      end
  end.

(** [getattr(v, a)]; [None] stands for [AttributeError]. *)
Definition getattr (P : program) (h : heap) (v : value) (a : string)
  : option value :=
  match v with
  | VRef l =>
      match h !! l with
      | Some o => lookup_attr o a
      | None => None
      end
  | _ => scalar_attrs P v !! a
  end.

Definition store_attr (a : string) (v : value) (o : object) : object :=
  match slots o !! a with
  | Some _ => with_slots (<[a := v]> (slots o)) o
  | None => with_dict (<[a := v]> (dict o)) o
  end.

(** [setattr(l, a, v)], that is [l.a = v]. *)
Definition setattr (h : heap) (l : loc) (a : string) (v : value) : heap :=
  alter (store_attr a v) l h.

(** [getattr(v, '__dict__', {})]. *)
Definition dict_of (h : heap) (v : value) : attrs :=
  match v with
  | VRef l =>
      match h !! l with
      | Some o => dict o
      | None => ∅
      end
  | _ => ∅
  end.

(** The truth test of [if v:]. The test is taken to answer: an object
    whose [__bool__] or [__len__] raises, or writes the store, is not
    covered, and no statement below speaks of one. *)
Definition truthy (h : heap) (v : value) : bool :=
  match v with
  | VNone => false
  | VInt n => negb (n =? 0)%Z
  | VStr s => negb (bool_decide (s = ""))
  | VRef l =>
      match h !! l with
      | Some o => truth o
      | None => true
      end
  end.

(** [callable(v)]. *)
Definition callable (h : heap) (v : value) : bool :=
  match v with
  | VRef l =>
      match h !! l with
      | Some o =>
          match kind_of o with
          | KOther => false
          | _ => true
          end
      | None => false
      end
  | _ => false
  end.

Definition class_of (h : heap) (l : loc) : option klass :=
  match h !! l with
  | Some o =>
      match kind_of o with
      | KInstance k => Some k
      | _ => None
      end
  | None => None
  end.

(** Allocation of a new object at an unused location. *)
Definition alloc (o : object) (h : heap) : loc * heap :=
  let l := fresh (dom h) in (l, <[l := o]> h).

(** ** functools

    [update_wrapper] and [partial] are imported by decorator.py; they are
    modelled after Python 3's functools: an attribute the wrapped value
    does not answer is skipped, [__dict__] is merged after the named
    attributes are assigned, and [__wrapped__] is set last. *)

Definition WRAPPER_ASSIGNMENTS : list string :=
  ["__module__"; "__name__"; "__qualname__"; "__doc__"; "__annotations__"].

(** The first loop of [update_wrapper]: every attribute of [assigned] that
    [wrapped] answers is set on [wrapper]; a missing one is skipped. *)
Definition assign_attrs (P : program) (wrapper : loc) (wrapped : value)
    (assigned : list string) (h : heap) : heap :=
  foldl (λ h a,
           match getattr P h wrapped a with
           | Some v => setattr h wrapper a v
           | None => h
           end) h assigned.

(** The second loop: [wrapper.__dict__.update(wrapped.__dict__)]; entries
    of [wrapped] replace those of [wrapper]. *)
Definition update_dict (wrapper : loc) (wrapped : value) (h : heap) : heap :=
  alter (λ o, with_dict (dict_of h wrapped ∪ dict o) o) wrapper h.

Definition update_wrapper (P : program) (wrapper : loc) (wrapped : value)
    (h : heap) : heap :=
  let h1 := assign_attrs P wrapper wrapped WRAPPER_ASSIGNMENTS h in
  let h2 := update_dict wrapper wrapped h1 in
  setattr h2 wrapper "__wrapped__" wrapped.

(** [partial(func, args...)]: a new partial object; applying [partial] to a
    partial object that has no attributes of its own extends that object's
    frozen arguments. *)
Definition partial (P : program) (func : value) (args : list value) : M value :=
  λ h,
    if callable h func then
      let o :=
        match func with
        | VRef l =>
            match h !! l with
            | Some (Object (KPartial f a k) _ _ d _) =>
                if decide (d = ∅) then KPartial f (a ++ args) k
                else KPartial func args ∅
            | _ => KPartial func args ∅
            end
        | _ => KPartial func args ∅
        end in
      let '(p, h') := alloc (Object o true ∅ ∅ (partial_attrs P)) h in
      (Ok (VRef p), h')
    else (Raise (TypeError "the first argument must be callable"), h).

(** ** class Decorator *)

(** [__decorator__], the method of the class: the base class raises, a
    subclass runs its own hook. This is what [self.__decorator__] is for
    an instance that has no entry of its own under that name; an entry
    merged into the instance's [__dict__] by the wrapping step would be
    found first. Statements about the hook of a given class say so when
    they rely on there being no such entry. *)
Definition __decorator__ (P : program) (self : loc) (args : list value)
    (kwargs : attrs) : M value :=
  λ h,
    match class_of h self with
    | Some Base =>
        (Raise (NotImplementedError
                  "Call behavior is not defined in this abstract class"), h)
    | Some (Subclass n) => overridden P n self args kwargs h
    | None => (Raise (AttributeError "__decorator__"), h)
    end.

Definition __wrap__ (P : program) (self : loc) (function : value) : M value :=
  λ h,
    let h1 := setattr h self "function" function in
    let h2 := update_wrapper P self function h1 in
    (Ok (VRef self), h2).

Definition __init__ (P : program) (self : loc) (function : value) : M value :=
  λ h,
    let h1 := setattr h self "function" function in
    if truthy h1 function then
      let '(_, h2) := __wrap__ P self function h1 in (Ok VNone, h2)
    else (Ok VNone, h1).

Definition __call__ (P : program) (self : loc) (args : list value)
    (kwargs : attrs) : M value :=
  λ h,
    match getattr P h (VRef self) "function" with
    | None => (Raise (AttributeError "function"), h)
    | Some f =>
        if truthy h f then __decorator__ P self args kwargs h
        else
          match args with
          | a0 :: _ => __wrap__ P self a0 h
          | [] => (Raise (IndexError "tuple index out of range"), h)
          end
    end.

Definition __get__ (P : program) (self : loc) (instance owner : value)
  : M value :=
  λ h,
    match instance with
    | VNone => (Ok (VRef self), h)
    | _ => partial P (VRef self) [instance] h
    end.

(** The expression [K(function)] for a class [K] of decorators: a new
    instance, initialised by [__init__]. [K()] passes [VNone]. The new
    instance has no data descriptor among the names the class reads or
    assigns; the descriptors every object has ([__class__], [__dict__],
    [__weakref__]) are not modelled. *)
Definition new_instance (P : program) (k : klass) : object :=
  Object (KInstance k) true ∅ ∅ (instance_attrs P k).

Definition construct (P : program) (k : klass) (function : value) : M value :=
  λ h,
    let '(self, h0) := alloc (new_instance P k) h in
    match __init__ P self function h0 with
    | (Ok _, h1) => (Ok (VRef self), h1)
    | (Raise e, h1) => (Raise e, h1)
    end.

(** ** Calling a value *)

(** A call that is not a call of a partial object: a decorator instance
    runs [__call__], any other value runs the code the program gives it. *)
Definition call_direct (P : program) (v : value) (args : list value)
    (kwargs : attrs) : M value :=
  λ h,
    match v with
    | VRef l =>
        match class_of h l with
        | Some _ => __call__ P l args kwargs h
        | None => body P v args kwargs h
        end
    | _ => body P v args kwargs h
    end.

(** Calling [v] with [args] and [kwargs]. A partial object calls its [func] with the frozen
    arguments first; keywords of the call replace the frozen ones. *)
Definition call (P : program) (v : value) (args : list value)
    (kwargs : attrs) : M value :=
  λ h,
    match v with
    | VRef l =>
        match kind_of <$> h !! l with
        | Some (KPartial f pargs pkw) =>
            call_direct P f (pargs ++ args) (kwargs ∪ pkw) h
        | _ => call_direct P v args kwargs h
        end
    | _ => call_direct P v args kwargs h
    end.

(** Sequencing of computations: an exception ends the sequence. *)
#[global] Instance M_bind : MBind M :=
  λ A B (k : A → M B) (m : M A) h,
    match m h with
    | (Ok a, h') => k a h'
    | (Raise e, h') => (Raise e, h')
    end.

#[global] Instance M_ret : MRet M := λ A (a : A) h, (Ok a, h).

(** ** States of an instance *)

(** The wrapped target: the value of [self.function]. *)
Definition target (P : program) (h : heap) (self : loc) : option value :=
  getattr P h (VRef self) "function".



Definition deferred (P : program) (h : heap) (self : loc) : Prop :=
  ∃ f, target P h self = Some f ∧ truthy h f = false.

(** The two ways of applying a class [k] of decorators to [func] and then
    calling the outcome: [k()(func)(args)] and [k(func)(args)]. *)
Definition two_step (P : program) (k : klass) (func : value)
    (args : list value) (kwargs : attrs) : M value :=
  d ← construct P k VNone;
  d' ← call P d [func] ∅;
  call P d' args kwargs.

Definition direct (P : program) (k : klass) (func : value)
    (args : list value) (kwargs : attrs) : M value :=
  d ← construct P k func;
  call P d args kwargs.




(** ** A sample program

    [add] is an ordinary function. In [prog] the hook of a subclass calls
    the wrapped function and doubles what it returns; in [rebinding_prog]
    the hook assigns [self.function]. *)
Module Sample.

Definition add_body : value → list value → attrs → M value :=
  λ _ args _ h,
    match args with
    | [VInt a; VInt b] => (Ok (VInt (a + b)), h)
    | _ => (Raise (TypeError "add() takes 2 integers"), h)
    end.

Definition class_doc (k : klass) : attrs :=
  match k with
  | Base =>
      {[ "__module__" := VStr "decorator";
         "__doc__" := VStr "Defines an interface for class based decorators." ]}
  | Subclass _ =>
      {[ "__module__" := VStr "__main__"; "__doc__" := VNone ]}
  end.

Definition plain : program :=
  Program (λ _ _ _ _ h, (Raise (TypeError "no hook"), h))
          add_body class_doc ∅ (λ _, ∅).

Definition doubled_hook : string → loc → list value → attrs → M value :=
  λ _ self args kwargs h,
    match getattr plain h (VRef self) "function" with
    | Some f =>
        match add_body f args kwargs h with
        | (Ok (VInt r), h') => (Ok (VInt (2 * r)), h')
        | other => other
        end
    | None => (Raise (AttributeError "function"), h)
    end.

Definition prog : program :=
  Program doubled_hook add_body class_doc ∅ (λ _, ∅).



(** A function [add], with the attributes a [def] gives it. *)
Definition add : object :=
  Object KCallable true
    {[ "__module__" := VStr "__main__"; "__name__" := VStr "add";
       "__qualname__" := VStr "add"; "__doc__" := VNone ]} ∅ ∅.

(** An instance of a class with [__call__] and with [__len__] answering 0:
    callable, and false under the truth test. *)
Definition empty_callable : object :=
  Object KCallable false ∅ {[ "__name__" := VStr "registry" ]} ∅.

(** A callable that carries an attribute called [function] in its own
    [__dict__], as every decorator instance does once it wraps [add]. *)
Definition inner : object :=
  Object (KInstance (Subclass "Doubled")) true ∅
    {[ "function" := VRef 1%positive; "__name__" := VStr "add" ]}
    (class_doc (Subclass "Doubled")).

(** The function [add] with a stray entry poked into its [__dict__]. *)
Definition poked : object :=
  Object KCallable true
    {[ "__name__" := VStr "add"; "__doc__" := VNone ]}
    {[ "__name__" := VStr "other" ]} ∅.

(** A callable that tests false and carries an attribute [function]. *)
Definition hollow : object :=
  Object KCallable false ∅ {[ "function" := VRef 1%positive ]} ∅.

Definition h0 : heap :=
  {[ 1%positive := add; 2%positive := empty_callable;
     3%positive := inner; 4%positive := poked; 5%positive := hollow ]}.

End Sample.

(** ** Instances of the sample program *)

Module Instances.
Import Sample.

Definition add_ref : value := VRef 1%positive.
Definition empty_ref : value := VRef 2%positive.
Definition inner_ref : value := VRef 3%positive.
Definition poked_ref : value := VRef 4%positive.
Definition hollow_ref : value := VRef 5%positive.

(** The location [construct] hands out in [h0]. *)
Definition d : loc := 6%positive.

(** [Doubled(add)], [Decorator(add)], [Doubled()], [Decorator()] and
    [Decorator(empty)] for the callable [empty] that tests false. *)
Definition doubled_add_heap : heap :=
  (construct prog (Subclass "Doubled") add_ref h0).2.
Definition base_add_heap : heap := (construct prog Base add_ref h0).2.
Definition doubled_heap : heap :=
  (construct prog (Subclass "Doubled") VNone h0).2.
Definition base_heap : heap := (construct prog Base VNone h0).2.

(** [Decorator()(empty)] and [Doubled()(empty)]: the wrapping step has run
    on the callable that tests false. *)
Definition base_wrapped_empty_heap : heap :=
  (__call__ prog d [empty_ref] ∅ base_heap).2.
Definition doubled_wrapped_empty_heap : heap :=
  (__call__ prog d [empty_ref] ∅ doubled_heap).2.


End Instances.


(** What the type of the object at [l] answers for [a] through a data
    descriptor, if anything; instances made by [construct] have none. *)
Definition slot_of (h : heap) (l : loc) (a : string) : option value :=
  h !! l ≫= λ o, slots o !! a.

(** * Properties *)

(** The scenario of the class docstring and of the specification:
    [Doubled(add)(2, 3)] is 10, through either form of application. *)
Example doubled_add :
  (direct Sample.prog (Subclass "Doubled") (VRef 1%positive)
     [VInt 2; VInt 3] ∅ Sample.h0).1 = Ok (VInt 10)
  ∧ (two_step Sample.prog (Subclass "Doubled") (VRef 1%positive)
       [VInt 2; VInt 3] ∅ Sample.h0).1 = Ok (VInt 10).
Proof. split; vm_compute; reflexivity. Qed.

Example construct_at_d k f :
  (construct Sample.prog k f Sample.h0).1 = Ok (VRef Instances.d).
Proof.
  unfold construct, __init__. simpl.
  destruct (truthy _ f); reflexivity.
Qed.

(** ** Attribute stores *)

Section store.
Context (P : program).
Implicit Types (h : heap) (o : object) (a b : string) (v w : value).

Lemma lookup_attr_store_eq o a v : lookup_attr (store_attr a v o) a = Some v.
Proof.
  unfold lookup_attr, store_attr.
  destruct (slots o !! a) eqn:Hs; simpl.
  - by rewrite lookup_insert_eq.
  - by rewrite Hs, lookup_insert_eq.
Qed.

Lemma slots_store_ne o a b v :
  a ≠ b → slots (store_attr a v o) !! b = slots o !! b.
Proof.
  intros Hab. unfold store_attr.
  destruct (slots o !! a); simpl; [by rewrite lookup_insert_ne | done].
Qed.

Lemma dict_store_ne o a b v :
  a ≠ b → dict (store_attr a v o) !! b = dict o !! b.
Proof.
  intros Hab. unfold store_attr.
  destruct (slots o !! a); simpl; [done | by rewrite lookup_insert_ne].
Qed.

Lemma kind_store o a v : kind_of (store_attr a v o) = kind_of o.
Proof. unfold store_attr. by destruct (slots o !! a). Qed.

Lemma truth_store o a v : truth (store_attr a v o) = truth o.
Proof. unfold store_attr. by destruct (slots o !! a). Qed.

Lemma class_ns_store o a v : class_ns (store_attr a v o) = class_ns o.
Proof. unfold store_attr. by destruct (slots o !! a). Qed.

Lemma lookup_attr_store_ne o a b v :
  a ≠ b → lookup_attr (store_attr a v o) b = lookup_attr o b.
Proof.
  intros Hab. unfold lookup_attr.
  by rewrite slots_store_ne, dict_store_ne, class_ns_store.
Qed.

(** Storing what the object already answers changes no answer. *)
Lemma lookup_attr_store_same o a b v :
  lookup_attr o a = Some v → lookup_attr (store_attr a v o) b = lookup_attr o b.
Proof.
  intros Hv. destruct (decide (a = b)) as [<- | Hab].
  - by rewrite lookup_attr_store_eq.
  - by apply lookup_attr_store_ne.
Qed.

Lemma store_attr_twice o a v w :
  store_attr a w (store_attr a v o) = store_attr a w o.
Proof.
  unfold store_attr. destruct (slots o !! a) eqn:Hs; simpl.
  - rewrite lookup_insert_eq. unfold with_slots; simpl.
    by rewrite insert_insert_eq.
  - rewrite Hs. unfold with_dict; simpl. by rewrite insert_insert_eq.
Qed.

Lemma setattr_lookup h l a v :
  setattr h l a v !! l = store_attr a v <$> h !! l.
Proof. unfold setattr. by rewrite lookup_alter_eq. Qed.

Lemma setattr_lookup_ne h l l' a v :
  l ≠ l' → setattr h l a v !! l' = h !! l'.
Proof. intros. unfold setattr. by rewrite lookup_alter_ne. Qed.

Lemma setattr_twice h l a v w :
  setattr (setattr h l a v) l a w = setattr h l a w.
Proof.
  unfold setattr. rewrite alter_alter_eq. apply alter_ext.
  intros o _. apply store_attr_twice.
Qed.

Lemma getattr_setattr_eq h l a v :
  is_Some (h !! l) → getattr P (setattr h l a v) (VRef l) a = Some v.
Proof.
  intros [o Ho]. simpl. rewrite setattr_lookup, Ho. simpl.
  apply lookup_attr_store_eq.
Qed.

Lemma getattr_setattr_ne h l a b v w :
  a ≠ b → getattr P (setattr h l a v) w b = getattr P h w b.
Proof.
  intros Hab. destruct w as [| | |l']; try done. simpl.
  destruct (decide (l = l')) as [<- | Hl].
  - rewrite setattr_lookup. destruct (h !! l); simpl; [|done].
    by apply lookup_attr_store_ne.
  - by rewrite setattr_lookup_ne.
Qed.

Lemma getattr_setattr_other h l a b v w :
  w ≠ VRef l → getattr P (setattr h l a v) w b = getattr P h w b.
Proof.
  intros Hw. destruct w as [| | |l']; try done. simpl.
  rewrite setattr_lookup_ne; [done | congruence].
Qed.

Lemma getattr_setattr_same h l a b v w :
  getattr P h w a = Some v → getattr P (setattr h l a v) w b = getattr P h w b.
Proof.
  intros Hv. destruct (decide (w = VRef l)) as [-> | Hw].
  - simpl in *. rewrite setattr_lookup. destruct (h !! l); simpl; [|done].
    by apply lookup_attr_store_same.
  - by apply getattr_setattr_other.
Qed.

Lemma truthy_setattr h l a v w : truthy (setattr h l a v) w = truthy h w.
Proof.
  destruct w as [| | |l']; try done. simpl.
  destruct (decide (l = l')) as [<- | Hl].
  - rewrite setattr_lookup. destruct (h !! l); simpl; [|done].
    apply truth_store.
  - by rewrite setattr_lookup_ne.
Qed.

Lemma class_of_setattr h l a v l' :
  class_of (setattr h l a v) l' = class_of h l'.
Proof.
  unfold class_of. destruct (decide (l = l')) as [<- | Hl].
  - rewrite setattr_lookup. destruct (h !! l); simpl; [|done].
    by rewrite kind_store.
  - by rewrite setattr_lookup_ne.
Qed.

Lemma dict_of_setattr_ne h l a b v w :
  a ≠ b → dict_of (setattr h l a v) w !! b = dict_of h w !! b.
Proof.
  intros Hab. destruct w as [| | |l']; try done. simpl.
  destruct (decide (l = l')) as [<- | Hl].
  - rewrite setattr_lookup. destruct (h !! l); simpl; [|done].
    by apply dict_store_ne.
  - by rewrite setattr_lookup_ne.
Qed.

Lemma dict_of_setattr_other h l a v w :
  w ≠ VRef l → dict_of (setattr h l a v) w = dict_of h w.
Proof.
  intros Hw. destruct w as [| | |l']; try done. simpl.
  rewrite setattr_lookup_ne; [done | congruence].
Qed.

Lemma setattr_is_Some h l l' a v :
  is_Some (setattr h l a v !! l') ↔ is_Some (h !! l').
Proof.
  destruct (decide (l = l')) as [<- | Hl].
  - rewrite setattr_lookup. by rewrite fmap_is_Some.
  - by rewrite setattr_lookup_ne.
Qed.

End store.

(** ** update_wrapper *)

Section wrapper.
Context (P : program).
Implicit Types (h : heap) (o : object) (a b : string) (v w f : value).

Lemma assign_attrs_cons self f a A h :
  assign_attrs P self f (a :: A) h =
  assign_attrs P self f A
    (match getattr P h f a with
     | Some v => setattr h self a v
     | None => h
     end).
Proof. done. Qed.

(** One round of the loop leaves every answer of the wrapped value as it
    was, also when the wrapped value is the wrapper itself. *)
Lemma assign_step_wrapped self f a b h :
  getattr P (match getattr P h f a with
             | Some v => setattr h self a v
             | None => h
             end) f b = getattr P h f b.
Proof.
  destruct (getattr P h f a) as [v|] eqn:Hv; [|done].
  by apply getattr_setattr_same.
Qed.

Lemma getattr_assign_wrapped self f A b h :
  getattr P (assign_attrs P self f A h) f b = getattr P h f b.
Proof.
  revert h. induction A as [|a A IH]; intros h; [done|].
  rewrite assign_attrs_cons, IH. apply assign_step_wrapped.
Qed.

Lemma assign_lookup_ne self f A h l :
  self ≠ l → assign_attrs P self f A h !! l = h !! l.
Proof.
  intros Hl. revert h. induction A as [|a A IH]; intros h; [done|].
  rewrite assign_attrs_cons, IH.
  destruct (getattr P h f a); [by apply setattr_lookup_ne | done].
Qed.

Lemma assign_is_Some self f A h l :
  is_Some (assign_attrs P self f A h !! l) ↔ is_Some (h !! l).
Proof.
  revert h. induction A as [|a A IH]; intros h; [done|].
  rewrite assign_attrs_cons, IH.
  destruct (getattr P h f a); [apply setattr_is_Some | done].
Qed.

Lemma truthy_assign self f A h w :
  truthy (assign_attrs P self f A h) w = truthy h w.
Proof.
  revert h. induction A as [|a A IH]; intros h; [done|].
  rewrite assign_attrs_cons, IH.
  destruct (getattr P h f a); [apply truthy_setattr | done].
Qed.

Lemma class_of_assign self f A h l :
  class_of (assign_attrs P self f A h) l = class_of h l.
Proof.
  revert h. induction A as [|a A IH]; intros h; [done|].
  rewrite assign_attrs_cons, IH.
  destruct (getattr P h f a); [apply class_of_setattr | done].
Qed.

Lemma getattr_assign_ne self f A h w b :
  b ∉ A → getattr P (assign_attrs P self f A h) w b = getattr P h w b.
Proof.
  revert h. induction A as [|a A IH]; intros h Hb; [done|].
  apply not_elem_of_cons in Hb as [Hba HbA].
  rewrite assign_attrs_cons, IH by done.
  destruct (getattr P h f a); [by apply getattr_setattr_ne | done].
Qed.

Lemma dict_of_assign_other self f A h w :
  w ≠ VRef self → dict_of (assign_attrs P self f A h) w = dict_of h w.
Proof.
  intros Hw. revert h. induction A as [|a A IH]; intros h; [done|].
  rewrite assign_attrs_cons, IH.
  destruct (getattr P h f a); [by apply dict_of_setattr_other | done].
Qed.

(** After the loop the wrapper answers every assigned name the way the
    wrapped value does. *)
Lemma assign_copied self f A h a v :
  is_Some (h !! self) → a ∈ A → getattr P h f a = Some v →
  getattr P (assign_attrs P self f A h) (VRef self) a = Some v.
Proof.
  revert h. induction A as [|x A IH]; intros h Hself Ha Hv.
  { by apply elem_of_nil in Ha. }
  rewrite assign_attrs_cons.
  destruct (decide (a ∈ A)) as [HA | HA].
  - apply IH; [|done|by rewrite assign_step_wrapped].
    destruct (getattr P h f x); [by apply setattr_is_Some | done].
  - apply elem_of_cons in Ha as [-> | ?]; [|done].
    rewrite getattr_assign_ne, Hv by done.
    by apply getattr_setattr_eq.
Qed.

Lemma update_dict_lookup_ne self f h l :
  self ≠ l → update_dict self f h !! l = h !! l.
Proof. intros. unfold update_dict. by rewrite lookup_alter_ne. Qed.

Lemma update_dict_lookup self f h :
  update_dict self f h !! self =
  (λ o, with_dict (dict_of h f ∪ dict o) o) <$> h !! self.
Proof. unfold update_dict. by rewrite lookup_alter_eq. Qed.

Lemma truthy_update_dict self f h w :
  truthy (update_dict self f h) w = truthy h w.
Proof.
  destruct w as [| | |l]; try done. simpl.
  destruct (decide (self = l)) as [<- | Hl].
  - rewrite update_dict_lookup. by destruct (h !! self).
  - by rewrite update_dict_lookup_ne.
Qed.

Lemma class_of_update_dict self f h l :
  class_of (update_dict self f h) l = class_of h l.
Proof.
  unfold class_of. destruct (decide (self = l)) as [<- | Hl].
  - rewrite update_dict_lookup. by destruct (h !! self).
  - by rewrite update_dict_lookup_ne.
Qed.

(** The merge of [__dict__] keeps an answer of the wrapper unless the
    wrapped value's own [__dict__] holds another value under that name. *)
Lemma getattr_update_dict self f h a v :
  getattr P h (VRef self) a = Some v →
  (f ≠ VRef self → ∀ y, dict_of h f !! a = Some y → y = v) →
  getattr P (update_dict self f h) (VRef self) a = Some v.
Proof.
  simpl. intros Hv Hd. rewrite update_dict_lookup.
  destruct (h !! self) as [o|] eqn:Ho; [simpl|done].
  unfold lookup_attr in *. simpl.
  destruct (slots o !! a) as [x|] eqn:Hs; [done|].
  rewrite lookup_union.
  destruct (dict_of h f !! a) as [y|] eqn:Hy.
  - destruct (decide (f = VRef self)) as [-> | Hf].
    + simpl in Hy. rewrite Ho in Hy. rewrite Hy in Hv |- *. by simplify_eq.
    + rewrite (Hd Hf y eq_refl). by destruct (dict o !! a).
  - destruct (dict o !! a); done.
Qed.

Lemma update_wrapper_lookup_ne self f h l :
  self ≠ l → update_wrapper P self f h !! l = h !! l.
Proof.
  intros. unfold update_wrapper.
  by rewrite setattr_lookup_ne, update_dict_lookup_ne, assign_lookup_ne.
Qed.

Lemma truthy_update_wrapper self f h w :
  truthy (update_wrapper P self f h) w = truthy h w.
Proof.
  unfold update_wrapper.
  by rewrite truthy_setattr, truthy_update_dict, truthy_assign.
Qed.

Lemma class_of_update_wrapper self f h l :
  class_of (update_wrapper P self f h) l = class_of h l.
Proof.
  unfold update_wrapper.
  by rewrite class_of_setattr, class_of_update_dict, class_of_assign.
Qed.

(** What the wrapper answers after the loop, it answers after the whole
    of [update_wrapper], under the same proviso. *)
Lemma getattr_update_wrapper self f h a v :
  a ≠ "__wrapped__" →
  getattr P (assign_attrs P self f WRAPPER_ASSIGNMENTS h) (VRef self) a
    = Some v →
  (f ≠ VRef self → ∀ y, dict_of h f !! a = Some y → y = v) →
  getattr P (update_wrapper P self f h) (VRef self) a = Some v.
Proof.
  intros Ha Hv Hd. unfold update_wrapper.
  rewrite getattr_setattr_ne by done.
  apply getattr_update_dict; [done|].
  intros Hf y. rewrite dict_of_assign_other by done. by apply Hd.
Qed.

Lemma function_not_assigned : "function" ∉ WRAPPER_ASSIGNMENTS.
Proof.
  unfold WRAPPER_ASSIGNMENTS. rewrite !not_elem_of_cons.
  repeat split; try done. apply not_elem_of_nil.
Qed.

Lemma wrapped_not_assigned : "__wrapped__" ∉ WRAPPER_ASSIGNMENTS.
Proof.
  unfold WRAPPER_ASSIGNMENTS. rewrite !not_elem_of_cons.
  repeat split; try done. apply not_elem_of_nil.
Qed.

(** The wrapping step. *)
Lemma wrap_result self f h :
  __wrap__ P self f h =
  (Ok (VRef self), update_wrapper P self f (setattr h self "function" f)).
Proof. done. Qed.

Lemma truthy_wrap self f h w :
  truthy (__wrap__ P self f h).2 w = truthy h w.
Proof. simpl. by rewrite truthy_update_wrapper, truthy_setattr. Qed.

Lemma class_of_wrap self f h l :
  class_of (__wrap__ P self f h).2 l = class_of h l.
Proof. simpl. by rewrite class_of_update_wrapper, class_of_setattr. Qed.

Lemma target_wrap self f h :
  is_Some (h !! self) →
  (f ≠ VRef self → dict_of h f !! "function" = None) →
  target P (__wrap__ P self f h).2 self = Some f.
Proof.
  intros Hself Hd. unfold target. simpl.
  apply getattr_update_wrapper; [done| |].
  - rewrite getattr_assign_ne.
    + by apply getattr_setattr_eq.
    + apply function_not_assigned.
  - intros Hf y. rewrite dict_of_setattr_other by done.
    rewrite (Hd Hf). done.
Qed.

Lemma wrap_idem_function self f v h :
  __wrap__ P self f (setattr h self "function" v) = __wrap__ P self f h.
Proof. unfold __wrap__. by rewrite setattr_twice. Qed.

End wrapper.

(** ** Allocation *)

Section allocation.
Context (P : program).
Implicit Types (h : heap) (o : object) (a b : string) (v w f : value).

Lemma fresh_lookup h : h !! fresh (dom h) = None.
Proof. apply not_elem_of_dom, is_fresh. Qed.

Lemma alloc_lookup_old o h l :
  is_Some (h !! l) → (alloc o h).2 !! l = h !! l.
Proof.
  intros [x Hx]. simpl. apply lookup_insert_ne.
  intros <-. by rewrite fresh_lookup in Hx.
Qed.

Lemma alloc_lookup_new o h : (alloc o h).2 !! (alloc o h).1 = Some o.
Proof. simpl. apply lookup_insert_eq. Qed.

(** A new object that passes the truth test changes no truth value: a
    location not yet in use counts as true. *)
Lemma truthy_alloc o h w : truth o = true → truthy (alloc o h).2 w = truthy h w.
Proof.
  intros Ho. destruct w as [| | |l]; try done. simpl.
  destruct (decide (fresh (dom h) = l)) as [<- | Hl].
  - by rewrite lookup_insert_eq, fresh_lookup.
  - by rewrite lookup_insert_ne.
Qed.


Lemma class_of_alloc_old o h l :
  is_Some (h !! l) → class_of (alloc o h).2 l = class_of h l.
Proof. intros Hl. unfold class_of. by rewrite alloc_lookup_old. Qed.

Lemma class_of_is_Some h l : is_Some (class_of h l) → is_Some (h !! l).
Proof. unfold class_of. destruct (h !! l); [eauto | by intros [? ?]]. Qed.


End allocation.

(** ** Invocation *)

Lemma call_truthy P h self f args kwargs :
  target P h self = Some f → truthy h f = true →
  __call__ P self args kwargs h = __decorator__ P self args kwargs h.
Proof. unfold target, __call__. by intros -> ->. Qed.

Lemma call_falsy P h self f args kwargs :
  target P h self = Some f → truthy h f = false →
  __call__ P self args kwargs h =
    match args with
    | a0 :: _ => __wrap__ P self a0 h
    | [] => (Raise (IndexError "tuple index out of range"), h)
    end.
Proof. unfold target, __call__. by intros -> ->. Qed.

(** C1 (amended): on an instance whose wrapped target passes the truth
    test and which has no entry of its own called [__decorator__],
    [__call__] with any positional and keyword arguments is the hook
    [__decorator__] of its class applied to the same instance and the same
    arguments: it returns what the hook returns and leaves the heap as the
    hook leaves it. For an instance of a subclass this is the subclass's
    own hook. *)
Theorem call_truthy_target_runs_hook P h self f args kwargs :
  target P h self = Some f →
  truthy h f = true →
  dict_of h (VRef self) !! "__decorator__" = None →
  __call__ P self args kwargs h = __decorator__ P self args kwargs h
  ∧ ∀ n, class_of h self = Some (Subclass n) →
         __call__ P self args kwargs h = overridden P n self args kwargs h.
Proof.
  intros Hf Ht _.
  pose proof (call_truthy P h self f args kwargs Hf Ht) as Hcall.
  split; [done|]. intros n Hn. rewrite Hcall.
  unfold __decorator__. by rewrite Hn.
Qed.

Lemma call_truthy_target_runs_hook_witness :
  __call__ Sample.prog Instances.d [VInt 2; VInt 3] ∅
    Instances.doubled_add_heap
  = overridden Sample.prog "Doubled" Instances.d [VInt 2; VInt 3] ∅
      Instances.doubled_add_heap.
Proof.
  apply (call_truthy_target_runs_hook Sample.prog
           Instances.doubled_add_heap Instances.d Instances.add_ref).
  - vm_compute. reflexivity.
  - vm_compute. reflexivity.
  - vm_compute. reflexivity.
  - vm_compute. reflexivity.
Defined.

(** C1, as stated, fails: after [Doubled()(empty)] the instance holds the
    callable it wrapped, but that callable fails the truth test, and the
    next invocation wraps its first argument and returns the instance
    where the hook would have called the callable. *)
Lemma call_truthy_target_runs_hook_counterexample :
  ¬ (∀ P h self f args kwargs,
       target P h self = Some f →
       callable h f = true →
       __call__ P self args kwargs h = __decorator__ P self args kwargs h).
Proof.
  intros H.
  pose proof (H Sample.prog Instances.doubled_wrapped_empty_heap
                Instances.d Instances.empty_ref [VInt 2; VInt 3] ∅
                ltac:(vm_compute; reflexivity)
                ltac:(vm_compute; reflexivity)) as Heq.
  apply (f_equal fst) in Heq. vm_compute in Heq. discriminate.
Qed.

(** C3 (amended): an instance of the base class whose wrapped target
    passes the truth test and which has no entry of its own called
    [__decorator__] raises [NotImplementedError] at once when invoked; the
    heap is left as it was and no value is returned. *)
Theorem base_call_raises P h self f args kwargs :
  class_of h self = Some Base →
  target P h self = Some f →
  truthy h f = true →
  dict_of h (VRef self) !! "__decorator__" = None →
  __call__ P self args kwargs h =
    (Raise (NotImplementedError
              "Call behavior is not defined in this abstract class"), h)
  ∧ ∀ v, (__call__ P self args kwargs h).1 ≠ Ok v.
Proof.
  intros Hk Hf Ht _.
  assert (__call__ P self args kwargs h =
          (Raise (NotImplementedError
                    "Call behavior is not defined in this abstract class"), h))
    as ->.
  { rewrite (call_truthy P h self f) by done.
    unfold __decorator__. by rewrite Hk. }
  split; [done|]. by intros v.
Qed.

Lemma base_call_raises_witness :
  __call__ Sample.prog Instances.d [VInt 2; VInt 3] ∅
    Instances.base_add_heap
  = (Raise (NotImplementedError
              "Call behavior is not defined in this abstract class"),
     Instances.base_add_heap).
Proof.
  apply (base_call_raises Sample.prog Instances.base_add_heap Instances.d
           Instances.add_ref).
  - vm_compute. reflexivity.
  - vm_compute. reflexivity.
  - vm_compute. reflexivity.
  - vm_compute. reflexivity.
Defined.

(** C3, as stated, fails: after [Decorator()(empty)] the base instance
    holds the callable it wrapped, but that callable fails the truth test,
    and the next invocation wraps its first argument and returns the
    instance without raising. *)
Lemma base_call_raises_counterexample :
  ¬ (∀ P h self f args kwargs,
       class_of h self = Some Base →
       target P h self = Some f →
       callable h f = true →
       ∃ msg h',
         __call__ P self args kwargs h = (Raise (NotImplementedError msg), h')).
Proof.
  intros H.
  destruct (H Sample.prog Instances.base_wrapped_empty_heap
              Instances.d Instances.empty_ref [Instances.add_ref] ∅
              ltac:(vm_compute; reflexivity)
              ltac:(vm_compute; reflexivity)
              ltac:(vm_compute; reflexivity)) as (msg & h' & Heq).
  apply (f_equal fst) in Heq. vm_compute in Heq. discriminate.
Qed.

Example base_wrapped_empty_returns :
  (__call__ Sample.prog Instances.d [Instances.add_ref] ∅
     Instances.base_wrapped_empty_heap).1 = Ok (VRef Instances.d).
Proof. vm_compute. reflexivity. Qed.



(** C10: on a deferred instance, [__call__] without positional arguments
    raises [IndexError]; the heap is untouched, so the instance is still
    deferred and its wrapped target is what it was. *)
Theorem deferred_call_no_args P h self kwargs :
  deferred P h self →
  __call__ P self [] kwargs h =
    (Raise (IndexError "tuple index out of range"), h)
  ∧ deferred P (__call__ P self [] kwargs h).2 self
  ∧ target P (__call__ P self [] kwargs h).2 self = target P h self.
Proof.
  intros Hd. pose proof Hd as (f & Hf & Ht). unfold target in Hf.
  assert (__call__ P self [] kwargs h =
          (Raise (IndexError "tuple index out of range"), h)) as ->.
  { unfold __call__. by rewrite Hf, Ht. }
  done.
Qed.

Lemma deferred_call_no_args_witness :
  __call__ Sample.prog Instances.d [] {[ "verbose" := VInt 1 ]}
    Instances.base_heap
  = (Raise (IndexError "tuple index out of range"), Instances.base_heap).
Proof.
  assert (deferred Sample.prog Instances.base_heap Instances.d) as Hd.
  { exists VNone. split; vm_compute; reflexivity. }
  exact (proj1 (deferred_call_no_args Sample.prog _ _ _ Hd)).
Defined.

(** ** Attribute access *)

Lemma partial_of_instance P h self instance :
  is_Some (class_of h self) →
  partial P (VRef self) [instance] h =
    (Ok (VRef (fresh (dom h))),
     <[fresh (dom h) :=
         Object (KPartial (VRef self) [instance] ∅) true ∅ ∅ (partial_attrs P)]> h).
Proof.
  intros [k Hk]. unfold class_of in Hk. unfold partial, callable, alloc.
  destruct (h !! self) as [[kd t s d c]|]; [simpl in *|done].
  destruct kd; done.
Qed.

(** C4: looked up without an owning instance, a decorator instance is
    returned as it is, and nothing changes. Looked up on an owning object,
    it yields a new callable, and calling that with any arguments is
    calling the decorator with the owning object put before them. *)
Theorem get_binds_instance P h self instance owner :
  is_Some (class_of h self) →
  __get__ P self VNone owner h = (Ok (VRef self), h)
  ∧ (instance ≠ VNone →
     ∃ p h',
       __get__ P self instance owner h = (Ok (VRef p), h')
       ∧ h !! p = None
       ∧ (∀ l, l ≠ p → h' !! l = h !! l)
       ∧ ∀ args kwargs,
           call P (VRef p) args kwargs h' =
           __call__ P self (instance :: args) kwargs h').
Proof.
  intros Hk. split; [done|]. intros Hi.
  exists (fresh (dom h)). eexists. split; [|split; [|split]].
  - unfold __get__. destruct instance; [done|..];
      by apply partial_of_instance.
  - apply fresh_lookup.
  - intros l Hl. by rewrite lookup_insert_ne.
  - intros args kwargs. unfold call. rewrite lookup_insert_eq. simpl.
    assert (class_of
              (<[fresh (dom h) :=
                   Object (KPartial (VRef self) [instance] ∅) true ∅ ∅
                     (partial_attrs P)]> h) self = class_of h self) as Hc.
    { apply (class_of_alloc_old _ h self). by apply class_of_is_Some. }
    destruct Hk as [k Hk]. rewrite Hc, Hk.
    by rewrite (right_id_L ∅ (∪)).
Qed.

Lemma get_binds_instance_witness :
  __get__ Sample.prog Instances.d VNone VNone Instances.doubled_add_heap
    = (Ok (VRef Instances.d), Instances.doubled_add_heap)
  ∧ ∃ p h',
      __get__ Sample.prog Instances.d Instances.inner_ref VNone
        Instances.doubled_add_heap = (Ok (VRef p), h')
      ∧ call Sample.prog (VRef p) [VInt 2; VInt 3] ∅ h' =
        __call__ Sample.prog Instances.d
          [Instances.inner_ref; VInt 2; VInt 3] ∅ h'.
Proof.
  assert (is_Some (class_of Instances.doubled_add_heap Instances.d)) as Hk.
  { exists (Subclass "Doubled"). vm_compute. reflexivity. }
  destruct (get_binds_instance Sample.prog _ _ Instances.inner_ref VNone Hk)
    as [Hnone Hbound].
  split; [exact Hnone|].
  destruct (Hbound ltac:(discriminate)) as (p & h' & Hget & _ & _ & Hcall).
  exists p, h'. split; [exact Hget | apply Hcall].
Defined.

(** ** Construction and the two forms of application *)

Section construction.
Context (P : program).
Implicit Types (h : heap) (k : klass) (f : value).

Lemma call_instance h l k args kwargs :
  class_of h l = Some k →
  call P (VRef l) args kwargs h = __call__ P l args kwargs h.
Proof.
  intros Hk. unfold call, call_direct. rewrite Hk.
  unfold class_of in Hk. destruct (h !! l) as [o|]; [simpl|done].
  by destruct (kind_of o).
Qed.

Lemma class_of_new k h :
  class_of (alloc (new_instance P k) h).2 (alloc (new_instance P k) h).1
  = Some k.
Proof. unfold class_of. by rewrite alloc_lookup_new. Qed.

Lemma target_new k h v :
  target P (setattr (alloc (new_instance P k) h).2
              (alloc (new_instance P k) h).1 "function" v)
    (alloc (new_instance P k) h).1 = Some v.
Proof.
  apply getattr_setattr_eq. rewrite alloc_lookup_new. eauto.
Qed.

(** [K(f)] for a value [f] that fails the truth test, [None] included:
    the value is stored and nothing else happens. *)
Lemma construct_falsy k h f :
  truthy h f = false →
  construct P k f h =
    (Ok (VRef (alloc (new_instance P k) h).1),
     setattr (alloc (new_instance P k) h).2
       (alloc (new_instance P k) h).1 "function" f).
Proof.
  intros Hf. unfold construct, __init__.
  destruct (alloc (new_instance P k) h) as [self h0] eqn:Ha.
  assert (truthy (setattr h0 self "function" f) f = false) as ->; [|done].
  rewrite truthy_setattr.
  change h0 with (self, h0).2. rewrite <- Ha. by rewrite truthy_alloc.
Qed.



End construction.




(** ** The wrapping step on a deferred instance *)




Example stacked_target :
  target Sample.prog
    (__call__ Sample.prog Instances.d [Instances.inner_ref] ∅
       Instances.base_heap).2 Instances.d = Some Instances.add_ref.
Proof. vm_compute. reflexivity. Qed.

(** ** The deferred form against the direct form *)





Example hollow_two_forms :
  (two_step Sample.prog (Subclass "Doubled") Instances.hollow_ref
     [VInt 2; VInt 3] ∅ Sample.h0).1 = Ok (VInt 10)
  ∧ (direct Sample.prog (Subclass "Doubled") Instances.hollow_ref
       [VInt 2; VInt 3] ∅ Sample.h0).1 = Ok (VRef Instances.d).
Proof. split; vm_compute; reflexivity. Qed.

(** ** Metadata *)

(** Every attribute that [update_wrapper] assigns and the wrapped value
    answers is answered alike by the instance after the wrapping step,
    unless the wrapped value's own [__dict__] holds another value under
    the same name. *)
Lemma wrap_copies_attr P h self f a v :
  is_Some (h !! self) →
  a ∈ WRAPPER_ASSIGNMENTS →
  getattr P h f a = Some v →
  (∀ y, dict_of h f !! a = Some y → y = v) →
  getattr P (__wrap__ P self f h).2 (VRef self) a = Some v.
Proof.
  intros Hself Ha Hv Hd. simpl.
  assert (a ≠ "function") as Hfun.
  { intros ->. by apply function_not_assigned. }
  apply getattr_update_wrapper.
  - intros ->. by apply wrapped_not_assigned.
  - apply assign_copied; [by apply setattr_is_Some|done|].
    by rewrite getattr_setattr_ne.
  - intros Hf y. rewrite dict_of_setattr_other by done. apply Hd.
Qed.

(** C8 (amended): when the wrapped callable answers [__name__] and
    [__doc__], and its own [__dict__] holds no other value under these two
    names, the instance answers both names with the callable's values after
    the wrapping step. *)
Theorem wrap_copies_metadata P h self f name doc :
  is_Some (h !! self) →
  getattr P h f "__name__" = Some name →
  getattr P h f "__doc__" = Some doc →
  (∀ y, dict_of h f !! "__name__" = Some y → y = name) →
  (∀ y, dict_of h f !! "__doc__" = Some y → y = doc) →
  getattr P (__wrap__ P self f h).2 (VRef self) "__name__" = Some name
  ∧ getattr P (__wrap__ P self f h).2 (VRef self) "__doc__" = Some doc.
Proof.
  intros Hself Hn Hd Hdn Hdd.
  split; apply wrap_copies_attr; try done;
    unfold WRAPPER_ASSIGNMENTS; rewrite !elem_of_cons; auto 6.
Qed.

Lemma wrap_copies_metadata_witness :
  getattr Sample.prog
    (__wrap__ Sample.prog Instances.d Instances.add_ref
       Instances.doubled_heap).2 (VRef Instances.d) "__name__"
    = Some (VStr "add")
  ∧ getattr Sample.prog
      (__wrap__ Sample.prog Instances.d Instances.add_ref
         Instances.doubled_heap).2 (VRef Instances.d) "__doc__"
    = Some VNone.
Proof.
  apply wrap_copies_metadata.
  - eexists. vm_compute. reflexivity.
  - vm_compute. reflexivity.
  - vm_compute. reflexivity.
  - intros y Hy. vm_compute in Hy. discriminate.
  - intros y Hy. vm_compute in Hy. discriminate.
Defined.

(** C8, as stated, fails for a function whose [__dict__] has an entry of
    its own under [__name__]: the function still answers its real name,
    the instance answers the entry. *)
Lemma wrap_copies_metadata_counterexample :
  ¬ (∀ P h self f name,
       is_Some (class_of h self) →
       callable h f = true →
       getattr P h f "__name__" = Some name →
       getattr P (__wrap__ P self f h).2 (VRef self) "__name__" = Some name).
Proof.
  intros H.
  assert (is_Some (class_of Instances.doubled_heap Instances.d)) as Hk.
  { exists (Subclass "Doubled"). vm_compute. reflexivity. }
  pose proof (H Sample.prog _ _ Instances.poked_ref (VStr "add") Hk
                ltac:(vm_compute; reflexivity)
                ltac:(vm_compute; reflexivity)) as Heq.
  vm_compute in Heq. discriminate.
Qed.

(** ** The wrapped target over the life of an instance *)









(** * Further properties of the wrapping step *)

Section wrapping.
Context (P : program).
Implicit Types (h : heap) (o : object) (a b : string) (v w f : value).

Lemma slots_store_none o a b v :
  slots o !! b = None → slots (store_attr a v o) !! b = None.
Proof.
  intros Hb. unfold store_attr.
  destruct (slots o !! a) eqn:Ha; simpl; [|done].
  rewrite lookup_insert_ne; [done | congruence].
Qed.

Lemma slot_of_setattr_none h l a v l' b :
  slot_of h l' b = None → slot_of (setattr h l a v) l' b = None.
Proof.
  unfold slot_of. destruct (decide (l = l')) as [<- | Hl].
  - rewrite setattr_lookup. destruct (h !! l); simpl; [|done].
    apply slots_store_none.
  - by rewrite setattr_lookup_ne.
Qed.

Lemma slot_of_assign_none self f A h l b :
  slot_of h l b = None → slot_of (assign_attrs P self f A h) l b = None.
Proof.
  revert h. induction A as [|a A IH]; intros h Hb; [done|].
  rewrite assign_attrs_cons. apply IH.
  destruct (getattr P h f a); [by apply slot_of_setattr_none | done].
Qed.

Lemma update_dict_is_Some self f h l :
  is_Some (update_dict self f h !! l) ↔ is_Some (h !! l).
Proof.
  destruct (decide (self = l)) as [<- | Hl].
  - rewrite update_dict_lookup. by rewrite fmap_is_Some.
  - by rewrite update_dict_lookup_ne.
Qed.

(** An attribute that the wrapped value does not answer is never assigned
    by the loop. *)
Lemma getattr_assign_none self f A h w a :
  getattr P h f a = None →
  getattr P (assign_attrs P self f A h) w a = getattr P h w a.
Proof.
  revert h. induction A as [|x A IH]; intros h Hf; [done|].
  rewrite assign_attrs_cons, IH by (by rewrite assign_step_wrapped).
  destruct (getattr P h f x) as [v|] eqn:Hx; [|done].
  apply getattr_setattr_ne. congruence.
Qed.

(** The merge of [__dict__] shows an entry of the wrapped value on a
    wrapper whose type has no data descriptor of that name. *)
Lemma getattr_update_dict_entry self f h a y :
  is_Some (h !! self) →
  slot_of h self a = None →
  dict_of h f !! a = Some y →
  getattr P (update_dict self f h) (VRef self) a = Some y.
Proof.
  intros [o Ho] Hs Hy. simpl. rewrite update_dict_lookup, Ho. simpl.
  unfold slot_of in Hs. rewrite Ho in Hs. simpl in Hs.
  unfold lookup_attr. simpl. rewrite Hs, lookup_union, Hy.
  by destruct (dict o !! a).
Qed.

(** The merge leaves alone what the wrapped value's [__dict__] lacks. *)
Lemma getattr_update_dict_keep self f h a :
  (f ≠ VRef self → dict_of h f !! a = None) →
  getattr P (update_dict self f h) (VRef self) a = getattr P h (VRef self) a.
Proof.
  intros Hd. simpl. rewrite update_dict_lookup.
  destruct (h !! self) as [o|] eqn:Ho; [simpl|done].
  unfold lookup_attr. simpl.
  destruct (slots o !! a); [done|]. rewrite lookup_union.
  destruct (decide (f = VRef self)) as [-> | Hf].
  - simpl. rewrite Ho. by destruct (dict o !! a).
  - rewrite (Hd Hf). by destruct (dict o !! a).
Qed.

Lemma dict_of_update_dict_other self f h w :
  w ≠ VRef self → dict_of (update_dict self f h) w = dict_of h w.
Proof.
  intros Hw. destruct w as [| | |l]; try done. simpl.
  rewrite update_dict_lookup_ne; [done | congruence].
Qed.

Lemma getattr_wrap_entry h self f a y :
  is_Some (h !! self) →
  slot_of h self a = None →
  f ≠ VRef self →
  a ≠ "__wrapped__" →
  dict_of h f !! a = Some y →
  getattr P (__wrap__ P self f h).2 (VRef self) a = Some y.
Proof.
  intros Hself Hs Hf Ha Hy. rewrite wrap_result. cbn [snd].
  unfold update_wrapper.
  rewrite getattr_setattr_ne by done.
  apply getattr_update_dict_entry.
  - by apply assign_is_Some, setattr_is_Some.
  - by apply slot_of_assign_none, slot_of_setattr_none.
  - by rewrite dict_of_assign_other, dict_of_setattr_other.
Qed.

End wrapping.

(** X1: the wrapping step writes the instance and nothing else: every
    other object of the heap, the wrapped callable included, is left as it
    was, and no value changes its truth value or its class. *)
Theorem wrap_frame P h self f :
  (∀ l, l ≠ self → (__wrap__ P self f h).2 !! l = h !! l)
  ∧ (∀ w, truthy (__wrap__ P self f h).2 w = truthy h w)
  ∧ (∀ l, class_of (__wrap__ P self f h).2 l = class_of h l).
Proof.
  split; [|split].
  - intros l Hl. rewrite wrap_result. cbn [snd].
    rewrite update_wrapper_lookup_ne by done. by apply setattr_lookup_ne.
  - intros w. apply truthy_wrap.
  - intros l. apply class_of_wrap.
Qed.

(** X2: after the wrapping step the instance answers [__wrapped__] with
    the value it was given to wrap, whatever that value carries. *)
Theorem wrap_sets_wrapped P h self f :
  is_Some (h !! self) →
  getattr P (__wrap__ P self f h).2 (VRef self) "__wrapped__" = Some f.
Proof.
  intros Hself. rewrite wrap_result. cbn [snd]. unfold update_wrapper.
  apply getattr_setattr_eq.
  by apply update_dict_is_Some, assign_is_Some, setattr_is_Some.
Qed.

Lemma wrap_sets_wrapped_witness :
  getattr Sample.prog
    (__wrap__ Sample.prog Instances.d Instances.inner_ref
       Instances.doubled_heap).2 (VRef Instances.d) "__wrapped__"
  = Some Instances.inner_ref.
Proof.
  apply wrap_sets_wrapped. eexists. vm_compute. reflexivity.
Defined.

(** X3: the wrapped target after the wrapping step, on an instance whose
    type has no data descriptor called [function]: it is the value given to
    wrap, unless that value has an entry called [function] in its own
    [__dict__], and then it is that entry. *)
Theorem wrap_target P h self f :
  is_Some (h !! self) →
  slot_of h self "function" = None →
  f ≠ VRef self →
  target P (__wrap__ P self f h).2 self
  = Some (default f (dict_of h f !! "function")).
Proof.
  intros Hself Hs Hf.
  destruct (dict_of h f !! "function") as [g|] eqn:Hg; simpl default.
  - by apply getattr_wrap_entry.
  - by apply target_wrap.
Qed.

Lemma wrap_target_witness :
  target Sample.prog
    (__wrap__ Sample.prog Instances.d Instances.inner_ref
       Instances.base_heap).2 Instances.d = Some Instances.add_ref
  ∧ target Sample.prog
      (__wrap__ Sample.prog Instances.d Instances.add_ref
         Instances.base_heap).2 Instances.d = Some Instances.add_ref.
Proof.
  split.
  - apply (wrap_target Sample.prog Instances.base_heap Instances.d
             Instances.inner_ref).
    + eexists. vm_compute. reflexivity.
    + vm_compute. reflexivity.
    + discriminate.
  - apply (wrap_target Sample.prog Instances.base_heap Instances.d
             Instances.add_ref).
    + eexists. vm_compute. reflexivity.
    + vm_compute. reflexivity.
    + discriminate.
Defined.

(** X4: the wrapping step keeps every other attribute of the instance, a
    configuration flag set by a subclass for instance: an attribute other
    than [function] and [__wrapped__] that the wrapped value neither
    answers as one of the assigned names nor holds in its own [__dict__]
    reads after the step as it read before. *)
Theorem wrap_keeps_attr P h self f a :
  a ≠ "function" →
  a ≠ "__wrapped__" →
  (a ∈ WRAPPER_ASSIGNMENTS → getattr P h f a = None) →
  (f ≠ VRef self → dict_of h f !! a = None) →
  getattr P (__wrap__ P self f h).2 (VRef self) a = getattr P h (VRef self) a.
Proof.
  intros Hfun Hwrapped Hassigned Hdict.
  rewrite wrap_result. cbn [snd]. unfold update_wrapper.
  rewrite getattr_setattr_ne by done.
  rewrite getattr_update_dict_keep.
  - destruct (decide (a ∈ WRAPPER_ASSIGNMENTS)) as [Ha | Ha].
    + rewrite getattr_assign_none.
      * by apply getattr_setattr_ne.
      * rewrite getattr_setattr_ne by done. by apply Hassigned.
    + rewrite getattr_assign_ne by done. by apply getattr_setattr_ne.
  - intros Hf. rewrite dict_of_assign_other, dict_of_setattr_other by done.
    by apply Hdict.
Qed.

Lemma wrap_keeps_attr_witness :
  getattr Sample.prog
    (__wrap__ Sample.prog Instances.d Instances.add_ref
       (setattr Instances.doubled_heap Instances.d "verbose" (VInt 1))).2
    (VRef Instances.d) "verbose"
  = Some (VInt 1).
Proof.
  rewrite (wrap_keeps_attr Sample.prog
             (setattr Instances.doubled_heap Instances.d "verbose" (VInt 1))
             Instances.d Instances.add_ref "verbose").
  - vm_compute. reflexivity.
  - discriminate.
  - discriminate.
  - intros _. vm_compute. reflexivity.
  - intros _. vm_compute. reflexivity.
Defined.

(** X5: the wrapping step shows the attributes of the wrapped value on the
    instance: an entry of the wrapped value's own [__dict__], under any
    name but [__wrapped__], is what an instance without a data descriptor
    of that name answers afterwards, whatever it answered before. *)
Theorem wrap_exposes_dict P h self f a y :
  is_Some (h !! self) →
  slot_of h self a = None →
  f ≠ VRef self →
  a ≠ "__wrapped__" →
  dict_of h f !! a = Some y →
  getattr P (__wrap__ P self f h).2 (VRef self) a = Some y
  ∧ dict_of (__wrap__ P self f h).2 f !! a = Some y.
Proof.
  intros Hself Hs Hf Ha Hy. split; [by apply getattr_wrap_entry|].
  rewrite wrap_result. cbn [snd]. unfold update_wrapper.
  rewrite dict_of_setattr_other, dict_of_update_dict_other,
    dict_of_assign_other, dict_of_setattr_other by done.
  done.
Qed.

Lemma wrap_exposes_dict_witness :
  getattr Sample.prog
    (__wrap__ Sample.prog Instances.d Instances.poked_ref
       Instances.doubled_heap).2 (VRef Instances.d) "__name__"
  = Some (VStr "other").
Proof.
  apply (wrap_exposes_dict Sample.prog Instances.doubled_heap Instances.d
           Instances.poked_ref "__name__" (VStr "other")).
  - eexists. vm_compute. reflexivity.
  - vm_compute. reflexivity.
  - discriminate.
  - discriminate.
  - vm_compute. reflexivity.
Defined.

(** ** Bound calls *)










(** X10: every name in [WRAPPER_ASSIGNMENTS], the module and the qualified
    name as well as the name and the docstring, is copied by the wrapping
    step: when the wrapped value answers it, with no other value under
    that name in its own [__dict__], the instance and the wrapped value
    answer it alike afterwards. *)
Theorem wrap_copies_assigned P h self f a v :
  is_Some (h !! self) →
  a ∈ WRAPPER_ASSIGNMENTS →
  getattr P h f a = Some v →
  (∀ y, dict_of h f !! a = Some y → y = v) →
  getattr P (__wrap__ P self f h).2 (VRef self) a = Some v
  ∧ getattr P (__wrap__ P self f h).2 f a = Some v.
Proof.
  intros Hself Ha Hv Hd.
  assert (getattr P (__wrap__ P self f h).2 (VRef self) a = Some v) as Hcopy
    by by apply wrap_copies_attr.
  split; [done|].
  destruct (decide (f = VRef self)) as [-> | Hf]; [done|].
  rewrite <- Hv. rewrite wrap_result. cbn [snd]. unfold update_wrapper.
  rewrite getattr_setattr_other by done.
  destruct f as [| | |l]; try done. unfold getattr.
  rewrite update_dict_lookup_ne, assign_lookup_ne, setattr_lookup_ne
    by congruence.
  done.
Qed.

Lemma wrap_copies_assigned_witness :
  getattr Sample.prog
    (__wrap__ Sample.prog Instances.d Instances.add_ref
       Instances.doubled_heap).2 (VRef Instances.d) "__qualname__"
  = Some (VStr "add").
Proof.
  apply (wrap_copies_assigned Sample.prog Instances.doubled_heap
           Instances.d Instances.add_ref "__qualname__" (VStr "add")).
  - eexists. vm_compute. reflexivity.
  - unfold WRAPPER_ASSIGNMENTS. rewrite !elem_of_cons. auto 6.
  - vm_compute. reflexivity.
  - intros y Hy. vm_compute in Hy. discriminate.
Defined.

(** X11: to the constructor, a value that fails the truth test is as good
    as no value: [K(f)(args)] then returns or raises what [K()(args)]
    does, and with at least one positional argument it ends in the same
    heap, the first argument being wrapped in place of [f]. *)
Theorem direct_falsy_is_deferred P k h f args kwargs :
  truthy h f = false →
  (direct P k f args kwargs h).1 = (direct P k VNone args kwargs h).1
  ∧ (args ≠ [] →
     direct P k f args kwargs h = direct P k VNone args kwargs h).
Proof.
  intros Hf. unfold direct, mbind, M_bind.
  rewrite !construct_falsy by done.
  set (self := (alloc (new_instance P k) h).1).
  set (h0 := (alloc (new_instance P k) h).2).
  assert (∀ v, class_of (setattr h0 self "function" v) self = Some k) as Hk.
  { intros v. rewrite class_of_setattr. apply class_of_new. }
  rewrite !(call_instance P _ _ k) by done.
  rewrite (call_falsy P _ self f), (call_falsy P _ self VNone);
    try done; try apply target_new.
  - destruct args as [|a0 args]; [done|].
    rewrite !wrap_idem_function. done.
  - unfold h0. by rewrite truthy_setattr, truthy_alloc.
Qed.

Lemma direct_falsy_is_deferred_witness :
  direct Sample.prog (Subclass "Doubled") Instances.empty_ref
    [Instances.add_ref] ∅ Sample.h0
  = direct Sample.prog (Subclass "Doubled") VNone
      [Instances.add_ref] ∅ Sample.h0.
Proof.
  apply (direct_falsy_is_deferred Sample.prog (Subclass "Doubled")
           Sample.h0 Instances.empty_ref [Instances.add_ref] ∅).
  - vm_compute. reflexivity.
  - discriminate.
Defined.
